(** * snowflake-ingest-node: a shallow embedding of [createSnowpipeAPI]

    The module [snowflake-ingest-node.ts] builds a client whose three
    operations ([insertFile], [insertReport], [loadHistoryScan]) mint a
    bearer token, build an HTTPS request, run it through [makeRequest] and
    optionally append a record to the per-endpoint call history.

    Modelling choices:
    - a JavaScript string is its sequence of UTF-16 code units ([list N]);
    - the Node runtime collaborators the code calls (crypto, jwt-simple,
      JSON.parse, String.prototype.toUpperCase) form the class [NodeRuntime];
      theorems hold for every instance;
    - what the environment supplies to one call (the random bytes of the
      request id, the two clock readings of [getBearerToken], the transport
      outcome) is the record [CallEnv.t];
    - the callbacks of [makeRequest] are a list of [Action]s, in the order
      the code performs them; [run] executes them against the history
      (pushes) and the promise (first settlement wins). *)

From Stdlib Require Import ZArith NArith List String Ascii Bool Lia.
Import ListNotations.
Open Scope N_scope.
Set Warnings "-register-all".

(** ** JavaScript strings *)

Definition str := list N.

Fixpoint lit (s : string) : str :=
  match s with
  | EmptyString => []
  | String a r => N.of_nat (nat_of_ascii a) :: lit r
  end.
Arguments lit s%_string.

Fixpoint str_eqb (a b : str) : bool :=
  match a, b with
  | [], [] => true
  | x :: a', y :: b' => N.eqb x y && str_eqb a' b'
  | _, _ => false
  end.

(** [Array.prototype.join] on an array of strings. *)
Fixpoint join (sep : str) (l : list str) : str :=
  match l with
  | [] => []
  | [x] => x
  | x :: r => x ++ sep ++ join sep r
  end.

(** JavaScript truthiness of an optional string parameter: [undefined]
    and [""] are falsy. *)
Definition truthy (o : option str) : bool :=
  match o with
  | Some (_ :: _) => true
  | _ => false
  end.

(** [Number.prototype.toString()] on an integer: decimal digits. *)
Fixpoint decimal_digits (fuel : nat) (n : Z) (acc : str) : str :=
  match fuel with
  | O => acc
  | S f =>
      let acc' := (48 + Z.to_N (n mod 10)) :: acc in
      if (n / 10 =? 0)%Z then acc' else decimal_digits f (n / 10) acc'
  end.

Definition Number_toString (n : Z) : str :=
  let m := Z.abs n in
  let ds := decimal_digits (S (Z.to_nat (Z.log2 m))) m [] in
  if (n <? 0)%Z then 45 :: ds else ds.

(** Lower-case hexadecimal digit, and a value as [k] hex digits. *)
Definition hex_digit (d : N) : N := if d <? 10 then 48 + d else 87 + d.

Fixpoint hex_fixed (k : nat) (n : N) : str :=
  match k with
  | O => []
  | S k' => hex_fixed k' (n / 16) ++ [hex_digit (n mod 16)]
  end.

(** ** JSON.stringify *)

Inductive jvalue :=
| JNull
| JBool (b : bool)
| JNum (n : Z)
| JStr (s : str)
| JArr (l : list jvalue)
| JObj (l : list (str * jvalue)).

Definition is_high_surrogate (u : N) : bool := (0xD800 <=? u) && (u <=? 0xDBFF).
Definition is_low_surrogate (u : N) : bool := (0xDC00 <=? u) && (u <=? 0xDFFF).

(** [\uXXXX] with lower-case hex digits. *)
Definition unicode_escape (u : N) : str := [92; 117] ++ hex_fixed 4 u.

(** Escape of one code unit that is not part of a surrogate pair
    (ECMA-262 QuoteJSONString, the table of short escapes first). *)
Definition escape_unit (u : N) : str :=
  if u =? 8 then [92; 98]
  else if u =? 9 then [92; 116]
  else if u =? 10 then [92; 110]
  else if u =? 12 then [92; 102]
  else if u =? 13 then [92; 114]
  else if u =? 34 then [92; 34]
  else if u =? 92 then [92; 92]
  else if u <? 32 then unicode_escape u
  else if is_high_surrogate u || is_low_surrogate u then unicode_escape u
  else [u].

Fixpoint quote_units (s : str) : str :=
  match s with
  | [] => []
  | u :: r =>
      if is_high_surrogate u then
        match r with
        | v :: r' =>
            if is_low_surrogate v then u :: v :: quote_units r'
            else unicode_escape u ++ quote_units r
        | [] => unicode_escape u
        end
      else escape_unit u ++ quote_units r
  end.

Definition QuoteJSONString (s : str) : str := [34] ++ quote_units s ++ [34].

Fixpoint JSON_stringify (v : jvalue) : str :=
  match v with
  | JNull => lit "null"
  | JBool b => if b then lit "true" else lit "false"
  | JNum n => Number_toString n
  | JStr s => QuoteJSONString s
  | JArr l => [91] ++ join [44] (map JSON_stringify l) ++ [93]
  | JObj l =>
      [123] ++ join [44] (map (fun '(k, x) => QuoteJSONString k ++ [58] ++ JSON_stringify x) l)
      ++ [125]
  end.

(** ** UTF-8 byte length of a string written by [req.write(postBody)]
    (Node's default 'utf8' encoding; a lone surrogate becomes U+FFFD). *)
Fixpoint utf8_length (s : str) : nat :=
  match s with
  | [] => 0
  | u :: r =>
      if u <? 0x80 then S (utf8_length r)
      else if u <? 0x800 then 2 + utf8_length r
      else if is_high_surrogate u then
        match r with
        | v :: r' => if is_low_surrogate v then 4 + utf8_length r' else 3 + utf8_length r
        | [] => 3
        end
      else 3 + utf8_length r
  end.

(** ** Data model *)

Module Payload.
(** The claim set signed by [getBearerToken]. *)
Record t := { iss : str; sub : str; iat : Z; exp : Z }.
End Payload.

(** An [Error] value: its message. *)
Inductive JsError := Error (message : str).

(** The Node runtime collaborators the module calls. *)
Class NodeRuntime := {
  (* crypto.createPublicKey(privateKey).export({type:'spki', format:'der'}); throws on a bad key *)
  createPublicKey_spki_der : str -> JsError + list N;
  (* crypto.createHash('sha256').update(bytes).digest() *)
  sha256_digest : list N -> list N;
  (* Buffer.prototype.toString('base64') *)
  base64 : list N -> str;
  (* jwt.encode(payload, privateKey, 'RS256'); throws when signing fails *)
  jwt_encode : Payload.t -> str -> JsError + str;
  (* JSON.parse; None when it throws *)
  JSON_parse : str -> option jvalue;
  (* String.prototype.toUpperCase *)
  toUpperCase : str -> str
}.

Record SnowpipeAPIOptions := { recordHistory : bool }.

Module RecordedCallResponse.
Record t := { error : option JsError; statusCode : option Z; messageBody : option str }.
End RecordedCallResponse.

Inductive hval := HStr (s : str) | HNum (n : Z).

Module RequestOptions.
Record t := {
  hostname : str;
  port : Z;
  path : str;
  method : str;
  headers : list (str * hval)
}.
End RequestOptions.

Module RecordedCall.
Record t := { request : RequestOptions.t; response : RecordedCallResponse.t }.
End RecordedCall.

(** The three slices of [apiEndpointHistory]; an [Endpoint] names the
    array a call pushes to (the reference passed to [makeRequest]). *)
Inductive Endpoint := EinsertFile | EinsertReport | EloadHistoryScan.

Module APIEndpointHistory.
Record t := {
  insertFile : list RecordedCall.t;
  insertReport : list RecordedCall.t;
  loadHistoryScan : list RecordedCall.t
}.
End APIEndpointHistory.

Definition get_slice (h : APIEndpointHistory.t) (e : Endpoint) : list RecordedCall.t :=
  match e with
  | EinsertFile => APIEndpointHistory.insertFile h
  | EinsertReport => APIEndpointHistory.insertReport h
  | EloadHistoryScan => APIEndpointHistory.loadHistoryScan h
  end.

(** [endpointCallHistory.push(call)] *)
Definition push (h : APIEndpointHistory.t) (e : Endpoint) (c : RecordedCall.t) : APIEndpointHistory.t :=
  match e with
  | EinsertFile => {| APIEndpointHistory.insertFile := APIEndpointHistory.insertFile h ++ [c];
                      APIEndpointHistory.insertReport := APIEndpointHistory.insertReport h;
                      APIEndpointHistory.loadHistoryScan := APIEndpointHistory.loadHistoryScan h |}
  | EinsertReport => {| APIEndpointHistory.insertFile := APIEndpointHistory.insertFile h;
                        APIEndpointHistory.insertReport := APIEndpointHistory.insertReport h ++ [c];
                        APIEndpointHistory.loadHistoryScan := APIEndpointHistory.loadHistoryScan h |}
  | EloadHistoryScan => {| APIEndpointHistory.insertFile := APIEndpointHistory.insertFile h;
                           APIEndpointHistory.insertReport := APIEndpointHistory.insertReport h;
                           APIEndpointHistory.loadHistoryScan := APIEndpointHistory.loadHistoryScan h ++ [c] |}
  end.

Module SnowpipeAPIResponse.
Record t := { json : jvalue; rawResponse : str; statusCode : option Z }.
End SnowpipeAPIResponse.

Inductive Settled := Fulfilled (r : SnowpipeAPIResponse.t) | Rejected (e : JsError).

(** What the transport does with one request: a response (status code,
    possibly undefined, and the data chunks) or an 'error' event. *)
Inductive Outcome :=
| Response (statusCode : option Z) (chunks : list str)
| RequestError (error : JsError).

Module CallEnv.
Record t := {
  randomBytes : list N;   (* crypto.randomBytes(16) *)
  now_iat : Z;            (* first new Date().getTime(), milliseconds *)
  now_exp : Z;            (* second new Date().getTime(), milliseconds *)
  outcome : Outcome
}.
End CallEnv.

Module Config.
Record t := { username : str; privateKey : str; account : str; hostname : str }.
End Config.

(** The closure built by [createSnowpipeAPI]. *)
Module SnowpipeAPI.
Record t := {
  config : Config.t;
  privateKey : str;
  snowpipeAPIOptions : option SnowpipeAPIOptions
}.
End SnowpipeAPI.

(** Effects of the promise executor of [makeRequest], in program order. *)
Inductive Action :=
| SendRequest (options : RequestOptions.t)   (* https.request(options, ...) *)
| WriteBody (chunk : str)                    (* req.write(postBody) *)
| Push (target : Endpoint) (call : RecordedCall.t)
| Resolve (r : SnowpipeAPIResponse.t)
| Reject (e : JsError).

Section Client.
Context {RT : NodeRuntime}.

(** [createSnowpipeAPI] *)
Definition domain_filter (parts : list (option str)) : list str :=
  flat_map (fun p => match p with Some x => [x] | None => [] end) parts.

Definition createSnowpipeAPI (username privateKey account : str)
    (regionId cloudProvider : option str) (snowpipeAPIOptions : option SnowpipeAPIOptions)
    : SnowpipeAPI.t :=
  let domainParts := [Some account; regionId; cloudProvider] in
  {| SnowpipeAPI.config :=
       {| Config.username := toUpperCase username;
          Config.privateKey := privateKey;
          Config.account := toUpperCase account;
          Config.hostname := join (lit ".") (domain_filter domainParts)
                             ++ lit ".snowflakecomputing.com" |};
     SnowpipeAPI.privateKey := privateKey;
     SnowpipeAPI.snowpipeAPIOptions := snowpipeAPIOptions |}.

Definition empty_history : APIEndpointHistory.t :=
  {| APIEndpointHistory.insertFile := [];
     APIEndpointHistory.insertReport := [];
     APIEndpointHistory.loadHistoryScan := [] |}.

(** [Math.round(num / den)] for [den > 0]: floor of [num/den + 1/2].
    Millisecond timestamps divided by 1000 are computed exactly. *)
Definition Math_round (num den : Z) : Z := ((2 * num + den) / (2 * den))%Z.

Definition token_payload (config : Config.t) (signature : str) (now_iat now_exp : Z) : Payload.t :=
  {| Payload.iss := Config.account config ++ lit "." ++ Config.username config ++ lit "." ++ signature;
     Payload.sub := Config.account config ++ lit "." ++ Config.username config;
     (* Math.round(new Date().getTime() / 1000) *)
     Payload.iat := Math_round now_iat 1000;
     (* Math.round(new Date().getTime() / 1000 + 60 * 59) *)
     Payload.exp := Math_round (now_exp + 1000 * (60 * 59)) 1000 |}.

Definition getBearerToken (api : SnowpipeAPI.t) (now_iat now_exp : Z) : JsError + str :=
  match createPublicKey_spki_der (SnowpipeAPI.privateKey api) with
  | inl e => inl e
  | inr publicKeyBytes =>
      let signature := lit "SHA256:" ++ base64 (sha256_digest publicKeyBytes) in
      jwt_encode (token_payload (SnowpipeAPI.config api) signature now_iat now_exp)
                 (SnowpipeAPI.privateKey api)
  end.

End Client.

Section Requests.
Context {RT : NodeRuntime}.

(** [snowpipeAPIOptions?.recordHistory === true] *)
Definition recording (snowpipeAPIOptions : option SnowpipeAPIOptions) : bool :=
  match snowpipeAPIOptions with
  | Some o => Bool.eqb (recordHistory o) true
  | None => false
  end.

(** A template-literal substitution [${x}] of an optional value. *)
Definition template_str (o : option str) : str :=
  match o with Some s => s | None => lit "undefined" end.

Definition template_num (o : option Z) : str :=
  match o with Some n => Number_toString n | None => lit "undefined" end.

(** The [response.on('end', ...)] handler. *)
Definition on_end (snowpipeAPIOptions : option SnowpipeAPIOptions) (options : RequestOptions.t)
    (endpointCallHistory : Endpoint) (statusCode : option Z) (body : list str) : list Action :=
  let messageBody := join [] body in
  (if recording snowpipeAPIOptions then
     [Push endpointCallHistory
        {| RecordedCall.request := options;
           RecordedCall.response :=
             {| RecordedCallResponse.error := None;
                RecordedCallResponse.statusCode := statusCode;
                RecordedCallResponse.messageBody := Some messageBody |} |}]
   else [])
  ++ (if match statusCode with
         | Some c => (c <? 200)%Z || (299 <? c)%Z
         | None => false
         end
      then [Reject (Error (lit "status code: " ++ template_num statusCode ++ lit ".  '"
                           ++ messageBody ++ lit "'"))]
      else
        let json := match JSON_parse messageBody with Some v => v | None => JNull end in
        [Resolve {| SnowpipeAPIResponse.json := json;
                    SnowpipeAPIResponse.rawResponse := messageBody;
                    SnowpipeAPIResponse.statusCode := statusCode |}]).

(** The [req.on('error', ...)] handler. *)
Definition on_error (snowpipeAPIOptions : option SnowpipeAPIOptions) (options : RequestOptions.t)
    (endpointCallHistory : Endpoint) (error : JsError) : list Action :=
  (if recording snowpipeAPIOptions then
     [Push endpointCallHistory
        {| RecordedCall.request := options;
           RecordedCall.response :=
             {| RecordedCallResponse.error := Some error;
                RecordedCallResponse.statusCode := None;
                RecordedCallResponse.messageBody := None |} |}]
   else [])
  ++ [Reject error].

Definition makeRequest (snowpipeAPIOptions : option SnowpipeAPIOptions) (options : RequestOptions.t)
    (endpointCallHistory : Endpoint) (postBody : option str) (outcome : Outcome) : list Action :=
  [SendRequest options]
  ++ (if truthy postBody then [WriteBody (template_str postBody)] else [])
  ++ match outcome with
     | Response statusCode chunks => on_end snowpipeAPIOptions options endpointCallHistory statusCode chunks
     | RequestError error => on_error snowpipeAPIOptions options endpointCallHistory error
     end.

Definition USER_AGENT : str := lit "snowpipe-ingest-node/0.0.1/node/npm".

(** [crypto.randomBytes(16).toString("hex")] *)
Definition getRequestId (randomBytes : list N) : str := flat_map (hex_fixed 2) randomBytes.

Definition insertFile (api : SnowpipeAPI.t) (pipeName : str) (filenames : list str)
    (postJSON : option bool) (env : CallEnv.t) : list Action :=
  let postJSON := match postJSON with Some b => b | None => false end in
  let '(contentType, postBody) :=
    if postJSON then
      (lit "application/json",
       JSON_stringify (JObj [(lit "files", JArr (map (fun filename => JObj [(lit "path", JStr filename)]) filenames))]))
    else (lit "text/plain", join [10] filenames) in
  let path := lit "/v1/data/pipes/" ++ pipeName ++ lit "/insertFiles?requestId="
              ++ getRequestId (CallEnv.randomBytes env) in
  match getBearerToken api (CallEnv.now_iat env) (CallEnv.now_exp env) with
  | inl e => [Reject e]
  | inr jwtToken =>
      let options :=
        {| RequestOptions.hostname := Config.hostname (SnowpipeAPI.config api);
           RequestOptions.port := 443;
           RequestOptions.path := path;
           RequestOptions.method := lit "POST";
           RequestOptions.headers :=
             [(lit "Content-Type", HStr contentType);
              (lit "Content-Length", HNum (Z.of_nat (List.length postBody)));
              (lit "Authorization", HStr (lit "Bearer " ++ jwtToken));
              (lit "User-Agent", HStr USER_AGENT);
              (lit "Accept", HStr (lit "application/json"))] |} in
      makeRequest (SnowpipeAPI.snowpipeAPIOptions api) options EinsertFile (Some postBody)
                  (CallEnv.outcome env)
  end.

Definition get_headers (jwtToken : str) : list (str * hval) :=
  [(lit "Authorization", HStr (lit "Bearer " ++ jwtToken));
   (lit "User-Agent", HStr USER_AGENT);
   (lit "Accept", HStr (lit "application/json"))].

Definition insertReport (api : SnowpipeAPI.t) (pipeName : str) (beginMark : option str)
    (env : CallEnv.t) : list Action :=
  let path0 := lit "/v1/data/pipes/" ++ pipeName ++ lit "/insertReport?requestId="
               ++ getRequestId (CallEnv.randomBytes env) in
  let path := if truthy beginMark then path0 ++ lit "&beginMark=" ++ template_str beginMark
              else path0 in
  match getBearerToken api (CallEnv.now_iat env) (CallEnv.now_exp env) with
  | inl e => [Reject e]
  | inr jwtToken =>
      let options :=
        {| RequestOptions.hostname := Config.hostname (SnowpipeAPI.config api);
           RequestOptions.port := 443;
           RequestOptions.path := path;
           RequestOptions.method := lit "GET";
           RequestOptions.headers := get_headers jwtToken |} in
      makeRequest (SnowpipeAPI.snowpipeAPIOptions api) options EinsertReport None
                  (CallEnv.outcome env)
  end.

Definition loadHistoryScan (api : SnowpipeAPI.t) (pipeName startTimeInclusive : str)
    (endTimeExclusive : option str) (env : CallEnv.t) : list Action :=
  let path0 := lit "/v1/data/pipes/" ++ pipeName ++ lit "/loadHistoryScan?startTimeInclusive="
               ++ startTimeInclusive ++ lit "&requestId=" ++ getRequestId (CallEnv.randomBytes env) in
  let path := if truthy endTimeExclusive
              then path0 ++ lit "&endTimeExclusive=" ++ template_str endTimeExclusive
              else path0 in
  match getBearerToken api (CallEnv.now_iat env) (CallEnv.now_exp env) with
  | inl e => [Reject e]
  | inr jwtToken =>
      let options :=
        {| RequestOptions.hostname := Config.hostname (SnowpipeAPI.config api);
           RequestOptions.port := 443;
           RequestOptions.path := path;
           RequestOptions.method := lit "GET";
           RequestOptions.headers := get_headers jwtToken |} in
      makeRequest (SnowpipeAPI.snowpipeAPIOptions api) options EloadHistoryScan None
                  (CallEnv.outcome env)
  end.

End Requests.

(** ** Running the effects of one call against the client state *)

(** A promise settles once; later [resolve]/[reject] calls are ignored. *)
Definition settle (settled : option Settled) (s : Settled) : option Settled :=
  match settled with Some s0 => Some s0 | None => Some s end.

Fixpoint run (h : APIEndpointHistory.t) (settled : option Settled) (acts : list Action)
    : APIEndpointHistory.t * option Settled :=
  match acts with
  | [] => (h, settled)
  | Push e c :: r => run (push h e c) settled r
  | Resolve v :: r => run h (settle settled (Fulfilled v)) r
  | Reject err :: r => run h (settle settled (Rejected err)) r
  | _ :: r => run h settled r
  end.

(** What reached the wire: the options of [https.request] and the bytes
    written with [req.write]. *)
Fixpoint sent_options (acts : list Action) : option RequestOptions.t :=
  match acts with
  | [] => None
  | SendRequest o :: _ => Some o
  | _ :: r => sent_options r
  end.

Fixpoint sent_body (acts : list Action) : str :=
  match acts with
  | [] => []
  | WriteBody s :: r => s ++ sent_body r
  | _ :: r => sent_body r
  end.

Fixpoint header (name : str) (hs : list (str * hval)) : option hval :=
  match hs with
  | [] => None
  | (k, v) :: r => if str_eqb k name then Some v else header name r
  end.

(** A sequence of invocations of the client's operations. *)
Inductive Call :=
| CinsertFile (pipeName : str) (filenames : list str) (postJSON : option bool) (env : CallEnv.t)
| CinsertReport (pipeName : str) (beginMark : option str) (env : CallEnv.t)
| CloadHistoryScan (pipeName startTimeInclusive : str) (endTimeExclusive : option str) (env : CallEnv.t).

Definition call_endpoint (c : Call) : Endpoint :=
  match c with
  | CinsertFile _ _ _ _ => EinsertFile
  | CinsertReport _ _ _ => EinsertReport
  | CloadHistoryScan _ _ _ _ => EloadHistoryScan
  end.

Definition call_env (c : Call) : CallEnv.t :=
  match c with
  | CinsertFile _ _ _ env | CinsertReport _ _ env | CloadHistoryScan _ _ _ env => env
  end.

Definition endpoint_eqb (a b : Endpoint) : bool :=
  match a, b with
  | EinsertFile, EinsertFile | EinsertReport, EinsertReport
  | EloadHistoryScan, EloadHistoryScan => true
  | _, _ => false
  end.

Section Calls.
Context {RT : NodeRuntime}.

Definition call_actions (api : SnowpipeAPI.t) (c : Call) : list Action :=
  match c with
  | CinsertFile p fs j env => insertFile api p fs j env
  | CinsertReport p m env => insertReport api p m env
  | CloadHistoryScan p s e env => loadHistoryScan api p s e env
  end.

(** Sequential calls: each one is awaited before the next starts. *)
Fixpoint run_calls (api : SnowpipeAPI.t) (h : APIEndpointHistory.t) (cs : list Call)
    : APIEndpointHistory.t * list (option Settled) :=
  match cs with
  | [] => (h, [])
  | c :: r =>
      let '(h1, s) := run h None (call_actions api c) in
      let '(h2, ss) := run_calls api h1 r in
      (h2, s :: ss)
  end.

End Calls.

(** The response record a completed request leaves in the history. *)
Definition outcome_record (o : Outcome) : RecordedCallResponse.t :=
  match o with
  | Response sc chunks =>
      {| RecordedCallResponse.error := None;
         RecordedCallResponse.statusCode := sc;
         RecordedCallResponse.messageBody := Some (join [] chunks) |}
  | RequestError e =>
      {| RecordedCallResponse.error := Some e;
         RecordedCallResponse.statusCode := None;
         RecordedCallResponse.messageBody := None |}
  end.

(** A concrete runtime used to evaluate the model on examples: the key is
    its own public key, hashing and base64 are the identity, the token is
    its subject claim, and JSON.parse accepts exactly the text [{}]. *)
#[export] Instance demoRuntime : NodeRuntime := {|
  createPublicKey_spki_der := fun k => match k with [] => inl (Error (lit "bad key")) | _ => inr k end;
  sha256_digest := fun b => b;
  base64 := fun b => b;
  jwt_encode := fun p _ => inr (Payload.sub p);
  JSON_parse := fun s => if str_eqb s (lit "{}") then Some (JObj []) else None;
  toUpperCase := fun s => s
|}.

Definition demoAPI (record : bool) : SnowpipeAPI.t :=
  createSnowpipeAPI (lit "user") (lit "KEY") (lit "ACME") None None
                    (Some {| recordHistory := record |}).

Definition demoEnv (o : Outcome) : CallEnv.t :=
  {| CallEnv.randomBytes := [0; 255; 16];
     CallEnv.now_iat := 1700000000000;
     CallEnv.now_exp := 1700000000000;
     CallEnv.outcome := o |}.

(** Pushes of an action list, in order, to the slice [e]. *)
Fixpoint pushes_to (e : Endpoint) (acts : list Action) : list RecordedCall.t :=
  match acts with
  | [] => []
  | Push t c :: r => (if endpoint_eqb t e then [c] else []) ++ pushes_to e r
  | _ :: r => pushes_to e r
  end.

Definition demoOptions : RequestOptions.t :=
  {| RequestOptions.hostname := lit "ACME.snowflakecomputing.com";
     RequestOptions.port := 443;
     RequestOptions.path := lit "/v1/data/pipes/p/insertReport?requestId=00ff10";
     RequestOptions.method := lit "GET";
     RequestOptions.headers := [] |}.

Definition demoCalls : list Call :=
  [CinsertReport (lit "p") None (demoEnv (Response (Some 200%Z) [lit "{}"]));
   CinsertFile (lit "p") [lit "a.csv"] None (demoEnv (RequestError (Error (lit "ECONNRESET"))));
   CinsertReport (lit "p") (Some (lit "m")) (demoEnv (Response (Some 403%Z) [lit "forbidden"]))].

Definition demoFileActions : list Action :=
  insertFile (RT := demoRuntime) (demoAPI true) (lit "p") [lit "a.csv"; lit "b.csv"] None
             (demoEnv (Response (Some 200%Z) [lit "{}"])).

Definition demoFileOptions : RequestOptions.t :=
  match sent_options demoFileActions with Some o => o | None => demoOptions end.



(** A second concrete runtime whose [toUpperCase] maps ASCII letters. *)
#[export] Instance upperRuntime : NodeRuntime := {|
  createPublicKey_spki_der := fun k => match k with [] => inl (Error (lit "bad key")) | _ => inr k end;
  sha256_digest := fun b => b;
  base64 := fun b => b;
  jwt_encode := fun p _ => inr (Payload.iss p);
  JSON_parse := fun s => if str_eqb s (lit "{}") then Some (JObj []) else None;
  toUpperCase := map (fun c => if (97 <=? c) && (c <=? 122) then c - 32 else c)
|}.

(** ** The earlier module [src/snowflake-ingest-node.ts]

    Its [createSnowpipeAPI], [getBearerToken] and [getRequestId] are
    line-for-line those modelled above.  Its [makeRequest] resolves with the
    raw body string instead of a [SnowpipeAPIResponse], its [insertFile]
    takes [(filenames, pipeName)] and always posts JSON, and its history is
    read through the method [endpointHistory()]. *)
Module Legacy.

Inductive Action :=
| SendRequest (options : RequestOptions.t)
| WriteBody (chunk : str)
| Push (target : Endpoint) (call : RecordedCall.t)
| Resolve (messageBody : str)
| Reject (e : JsError).

Section Legacy.
Context {RT : NodeRuntime}.

Definition on_end (snowpipeAPIOptions : option SnowpipeAPIOptions) (options : RequestOptions.t)
    (endpointCallHistory : Endpoint) (statusCode : option Z) (body : list str) : list Action :=
  let messageBody := join [] body in
  (if recording snowpipeAPIOptions then
     [Push endpointCallHistory
        {| RecordedCall.request := options;
           RecordedCall.response :=
             {| RecordedCallResponse.error := None;
                RecordedCallResponse.statusCode := statusCode;
                RecordedCallResponse.messageBody := Some messageBody |} |}]
   else [])
  ++ (if match statusCode with
         | Some c => (c <? 200)%Z || (299 <? c)%Z
         | None => false
         end
      then [Reject (Error (lit "status code: " ++ template_num statusCode ++ lit ".  '"
                           ++ messageBody ++ lit "'"))]
      else [Resolve messageBody]).

Definition on_error (snowpipeAPIOptions : option SnowpipeAPIOptions) (options : RequestOptions.t)
    (endpointCallHistory : Endpoint) (error : JsError) : list Action :=
  (if recording snowpipeAPIOptions then
     [Push endpointCallHistory
        {| RecordedCall.request := options;
           RecordedCall.response :=
             {| RecordedCallResponse.error := Some error;
                RecordedCallResponse.statusCode := None;
                RecordedCallResponse.messageBody := None |} |}]
   else [])
  ++ [Reject error].

Definition makeRequest (snowpipeAPIOptions : option SnowpipeAPIOptions) (options : RequestOptions.t)
    (endpointCallHistory : Endpoint) (postBody : option str) (outcome : Outcome) : list Action :=
  [SendRequest options]
  ++ (if truthy postBody then [WriteBody (template_str postBody)] else [])
  ++ match outcome with
     | Response statusCode chunks => on_end snowpipeAPIOptions options endpointCallHistory statusCode chunks
     | RequestError error => on_error snowpipeAPIOptions options endpointCallHistory error
     end.

Definition insertFile (api : SnowpipeAPI.t) (filenames : list str) (pipeName : str)
    (env : CallEnv.t) : list Action :=
  let postBody :=
    JSON_stringify (JObj [(lit "files", JArr (map (fun filename => JObj [(lit "path", JStr filename)]) filenames))]) in
  let path := lit "/v1/data/pipes/" ++ pipeName ++ lit "/insertFiles?requestId="
              ++ getRequestId (CallEnv.randomBytes env) in
  match getBearerToken api (CallEnv.now_iat env) (CallEnv.now_exp env) with
  | inl e => [Reject e]
  | inr jwtToken =>
      let options :=
        {| RequestOptions.hostname := Config.hostname (SnowpipeAPI.config api);
           RequestOptions.port := 443;
           RequestOptions.path := path;
           RequestOptions.method := lit "POST";
           RequestOptions.headers :=
             [(lit "Content-Type", HStr (lit "application/json"));
              (lit "Content-Length", HNum (Z.of_nat (List.length postBody)));
              (lit "Authorization", HStr (lit "Bearer " ++ jwtToken));
              (lit "User-Agent", HStr USER_AGENT);
              (lit "Accept", HStr (lit "application/json"))] |} in
      makeRequest (SnowpipeAPI.snowpipeAPIOptions api) options EinsertFile (Some postBody)
                  (CallEnv.outcome env)
  end.

Definition insertReport (api : SnowpipeAPI.t) (pipeName : str) (beginMark : option str)
    (env : CallEnv.t) : list Action :=
  let path0 := lit "/v1/data/pipes/" ++ pipeName ++ lit "/insertReport?requestId="
               ++ getRequestId (CallEnv.randomBytes env) in
  let path := if truthy beginMark then path0 ++ lit "&beginMark=" ++ template_str beginMark
              else path0 in
  match getBearerToken api (CallEnv.now_iat env) (CallEnv.now_exp env) with
  | inl e => [Reject e]
  | inr jwtToken =>
      let options :=
        {| RequestOptions.hostname := Config.hostname (SnowpipeAPI.config api);
           RequestOptions.port := 443;
           RequestOptions.path := path;
           RequestOptions.method := lit "GET";
           RequestOptions.headers := get_headers jwtToken |} in
      makeRequest (SnowpipeAPI.snowpipeAPIOptions api) options EinsertReport None
                  (CallEnv.outcome env)
  end.

Definition loadHistoryScan (api : SnowpipeAPI.t) (pipeName startTimeInclusive : str)
    (endTimeExclusive : option str) (env : CallEnv.t) : list Action :=
  let path0 := lit "/v1/data/pipes/" ++ pipeName ++ lit "/loadHistoryScan?startTimeInclusive="
               ++ startTimeInclusive ++ lit "&requestId=" ++ getRequestId (CallEnv.randomBytes env) in
  let path := if truthy endTimeExclusive
              then path0 ++ lit "&endTimeExclusive=" ++ template_str endTimeExclusive
              else path0 in
  match getBearerToken api (CallEnv.now_iat env) (CallEnv.now_exp env) with
  | inl e => [Reject e]
  | inr jwtToken =>
      let options :=
        {| RequestOptions.hostname := Config.hostname (SnowpipeAPI.config api);
           RequestOptions.port := 443;
           RequestOptions.path := path;
           RequestOptions.method := lit "GET";
           RequestOptions.headers := get_headers jwtToken |} in
      makeRequest (SnowpipeAPI.snowpipeAPIOptions api) options EloadHistoryScan None
                  (CallEnv.outcome env)
  end.

End Legacy.
End Legacy.

(** The effect of the current module seen through the earlier module's
    result type: a fulfilment carries only the raw body. *)
Definition legacy_of (a : Action) : Legacy.Action :=
  match a with
  | SendRequest o => Legacy.SendRequest o
  | WriteBody s => Legacy.WriteBody s
  | Push t c => Legacy.Push t c
  | Resolve r => Legacy.Resolve (SnowpipeAPIResponse.rawResponse r)
  | Reject e => Legacy.Reject e
  end.


Example demo_insertFile_plain :
  sent_body (insertFile (demoAPI true) (lit "p") [lit "a.csv"; lit "b.csv"] None
                        (demoEnv (Response (Some 200%Z) [lit "{}"])))
  = lit "a.csv" ++ [10] ++ lit "b.csv".
Proof. vm_compute. reflexivity. Qed.

Example demo_path :
  option_map RequestOptions.path
    (sent_options (insertReport (demoAPI true) (lit "p") (Some (lit "m")) (demoEnv (RequestError (Error [])))))
  = Some (lit "/v1/data/pipes/p/insertReport?requestId=00ff10&beginMark=m").
Proof. vm_compute. reflexivity. Qed.

Example demo_status :
  snd (run empty_history None (insertReport (demoAPI true) (lit "p") None
                               (demoEnv (Response (Some 403%Z) [lit "forbid"; lit "den"]))))
  = Some (Rejected (Error (lit "status code: 403.  'forbidden'"))).
Proof. vm_compute. reflexivity. Qed.

(** ** General facts about the effect runner *)

Lemma run_app : forall acts1 acts2 h s,
  run h s (acts1 ++ acts2) = let '(h1, s1) := run h s acts1 in run h1 s1 acts2.
Proof.
  induction acts1 as [|a acts1 IH]; intros acts2 h s; [reflexivity|].
  destruct a; simpl; apply IH.
Qed.

Lemma get_slice_push : forall h t c e,
  get_slice (push h t c) e = get_slice h e ++ (if endpoint_eqb t e then [c] else []).
Proof.
  intros h t c e; destruct t, e; simpl; rewrite ?app_nil_r; reflexivity.
Qed.

Lemma endpoint_eqb_spec : forall a b, endpoint_eqb a b = true <-> a = b.
Proof. intros [] []; simpl; split; congruence. Qed.

Lemma run_slice : forall acts h s e,
  get_slice (fst (run h s acts)) e = get_slice h e ++ pushes_to e acts.
Proof.
  induction acts as [|a acts IH]; intros h s e; simpl.
  - rewrite app_nil_r; reflexivity.
  - destruct a; rewrite ?IH; try reflexivity.
    rewrite get_slice_push, app_assoc; reflexivity.
Qed.

Lemma pushes_to_app : forall e a b, pushes_to e (a ++ b) = pushes_to e a ++ pushes_to e b.
Proof.
  induction a as [|x a IH]; intros b; simpl; [reflexivity|].
  destruct x; rewrite ?IH, ?app_assoc; reflexivity.
Qed.

Section RequestFacts.
Context {RT : NodeRuntime}.

Lemma makeRequest_pushes : forall opts options target pb o e,
  pushes_to e (makeRequest opts options target pb o)
  = if recording opts && endpoint_eqb target e
    then [{| RecordedCall.request := options; RecordedCall.response := outcome_record o |}]
    else [].
Proof.
  intros opts options target pb o e; unfold makeRequest.
  rewrite !pushes_to_app.
  assert (Hw : pushes_to e (if truthy pb then [WriteBody (template_str pb)] else []) = [])
    by (destruct (truthy pb); reflexivity).
  rewrite Hw; simpl.
  destruct o as [sc chunks | err]; unfold on_end, on_error; rewrite pushes_to_app.
  - destruct (recording opts); simpl;
      destruct (match sc with Some c => (c <? 200)%Z || (299 <? c)%Z | None => false end);
      simpl; destruct (endpoint_eqb target e); reflexivity.
  - destruct (recording opts); simpl; destruct (endpoint_eqb target e); reflexivity.
Qed.

Lemma makeRequest_sent_options : forall opts options target pb o,
  sent_options (makeRequest opts options target pb o) = Some options.
Proof. reflexivity. Qed.

Lemma sent_body_app : forall a b, sent_body (a ++ b) = sent_body a ++ sent_body b.
Proof.
  induction a as [|x a IH]; intros b; simpl; [reflexivity|].
  destruct x; rewrite ?IH, ?app_assoc; reflexivity.
Qed.

Lemma makeRequest_sent_body : forall opts options target pb o,
  sent_body (makeRequest opts options target (Some pb) o) = pb.
Proof.
  intros opts options target pb o; unfold makeRequest.
  rewrite !sent_body_app.
  assert (Hr : sent_body match o with
                         | Response sc chunks => on_end opts options target sc chunks
                         | RequestError err => on_error opts options target err
                         end = []).
  { destruct o as [sc chunks | err]; unfold on_end, on_error; rewrite sent_body_app.
    - destruct (recording opts);
        destruct (match sc with Some c => (c <? 200)%Z || (299 <? c)%Z | None => false end);
        reflexivity.
    - destruct (recording opts); reflexivity. }
  rewrite Hr; destruct pb; simpl; rewrite ?app_nil_r; reflexivity.
Qed.

(** With a token minted, every operation is one [makeRequest] on its own slice. *)
Lemma call_actions_makeRequest : forall api c jwtToken,
  getBearerToken api (CallEnv.now_iat (call_env c)) (CallEnv.now_exp (call_env c)) = inr jwtToken ->
  exists options pb,
    call_actions api c
    = makeRequest (SnowpipeAPI.snowpipeAPIOptions api) options (call_endpoint c) pb
                  (CallEnv.outcome (call_env c)).
Proof.
  intros api c jwtToken H; destruct c; simpl in *; unfold insertFile, insertReport, loadHistoryScan;
    rewrite H; [destruct (match postJSON with Some b => b | None => false end)|..];
    eexists; eexists; reflexivity.
Qed.

(** Without a token the operation rejects and pushes nothing. *)
Lemma call_actions_no_token : forall api c err,
  getBearerToken api (CallEnv.now_iat (call_env c)) (CallEnv.now_exp (call_env c)) = inl err ->
  call_actions api c = [Reject err].
Proof.
  intros api c err H; destruct c; simpl in *; unfold insertFile, insertReport, loadHistoryScan;
    rewrite H; [destruct (match postJSON with Some b => b | None => false end)|..]; reflexivity.
Qed.

Lemma call_pushes_other : forall api c e,
  call_endpoint c <> e -> pushes_to e (call_actions api c) = [].
Proof.
  intros api c e Hne.
  destruct (getBearerToken api (CallEnv.now_iat (call_env c)) (CallEnv.now_exp (call_env c)))
    as [err|tok] eqn:Ht.
  - rewrite (call_actions_no_token _ _ _ Ht); reflexivity.
  - destruct (call_actions_makeRequest _ _ _ Ht) as (options & pb & ->).
    rewrite makeRequest_pushes.
    destruct (endpoint_eqb (call_endpoint c) e) eqn:He.
    + apply endpoint_eqb_spec in He; contradiction.
    + rewrite andb_false_r; reflexivity.
Qed.

End RequestFacts.

(** ** Claims about the request executor [makeRequest] *)

Lemma error_status_true : forall sc,
  (sc < 200 \/ 299 < sc)%Z -> ((sc <? 200)%Z || (299 <? sc)%Z) = true.
Proof.
  intros sc H; apply orb_true_iff; destruct H; [left|right]; apply Z.ltb_lt; lia.
Qed.

Lemma success_status_false : forall sc,
  (200 <= sc <= 299)%Z -> ((sc <? 200)%Z || (299 <? sc)%Z) = false.
Proof.
  intros sc H; apply orb_false_iff; split; apply Z.ltb_ge; lia.
Qed.

(** C2: a response whose status code lies outside [200,299] rejects the
    call with an [Error] whose message is [status code: <code>.  '<body>']
    (the status code and the joined body verbatim); with history recording
    on, the calling endpoint's slice gains exactly one record
    [{request: options, response: {statusCode, messageBody}}], pushed
    before the rejection. *)
Theorem makeRequest_http_error :
  forall (RT : NodeRuntime) opts options target pb sc chunks h,
  (sc < 200 \/ 299 < sc)%Z ->
  let messageBody := join [] chunks in
  let rc := {| RecordedCall.request := options;
               RecordedCall.response :=
                 {| RecordedCallResponse.error := None;
                    RecordedCallResponse.statusCode := Some sc;
                    RecordedCallResponse.messageBody := Some messageBody |} |} in
  let err := Error (lit "status code: " ++ Number_toString sc ++ lit ".  '"
                    ++ messageBody ++ lit "'") in
  let acts := makeRequest opts options target pb (Response (Some sc) chunks) in
  snd (run h None acts) = Some (Rejected err)
  /\ get_slice (fst (run h None acts)) target
     = get_slice h target ++ (if recording opts then [rc] else [])
  /\ (recording opts = true -> exists pre, acts = pre ++ [Push target rc; Reject err]).
Proof.
  intros RT opts options target pb sc chunks h Hsc messageBody rc err acts.
  pose proof (error_status_true sc Hsc) as Hc.
  split; [|split].
  - unfold acts, makeRequest, on_end; simpl; rewrite Hc.
    destruct (truthy pb), (recording opts); reflexivity.
  - unfold acts; rewrite run_slice, makeRequest_pushes.
    assert (Ht : endpoint_eqb target target = true) by (apply endpoint_eqb_spec; reflexivity).
    rewrite Ht, andb_true_r; reflexivity.
  - intros Hr; unfold acts, makeRequest, on_end; simpl; rewrite Hr, Hc.
    exists (SendRequest options :: (if truthy pb then [WriteBody (template_str pb)] else [])).
    destruct (truthy pb); reflexivity.
Qed.

(** C6: a 2xx response whose body JSON.parse rejects still fulfils the
    call, with [json = null], the raw body and the status code. *)
Theorem makeRequest_unparsable_success :
  forall (RT : NodeRuntime) opts options target pb sc chunks h,
  (200 <= sc <= 299)%Z ->
  JSON_parse (join [] chunks) = None ->
  snd (run h None (makeRequest opts options target pb (Response (Some sc) chunks)))
  = Some (Fulfilled {| SnowpipeAPIResponse.json := JNull;
                       SnowpipeAPIResponse.rawResponse := join [] chunks;
                       SnowpipeAPIResponse.statusCode := Some sc |}).
Proof.
  intros RT opts options target pb sc chunks h Hsc Hp.
  unfold makeRequest, on_end; simpl; rewrite (success_status_false sc Hsc), Hp.
  destruct (truthy pb), (recording opts); reflexivity.
Qed.

(** C8: a response with an undefined status code is never classified as
    an HTTP error: the call fulfils with the parse-attempted json, the raw
    body and the undefined status code, whatever the body. *)
Theorem makeRequest_undefined_status :
  forall (RT : NodeRuntime) opts options target pb chunks h,
  snd (run h None (makeRequest opts options target pb (Response None chunks)))
  = Some (Fulfilled {| SnowpipeAPIResponse.json :=
                         match JSON_parse (join [] chunks) with Some v => v | None => JNull end;
                       SnowpipeAPIResponse.rawResponse := join [] chunks;
                       SnowpipeAPIResponse.statusCode := None |}).
Proof.
  intros RT opts options target pb chunks h.
  unfold makeRequest, on_end; simpl.
  destruct (truthy pb), (recording opts); reflexivity.
Qed.

(** ** Claims about the call-history ledger *)

(** C9: each operation pushes only to its own slice: after [insertFile]
    the insertReport and loadHistoryScan slices are unchanged, and
    symmetrically for [insertReport] and [loadHistoryScan], whatever the
    outcome of the call (success, HTTP error, transport error, token
    failure) and whether or not history is recorded. *)
Theorem endpoint_operations_frame :
  forall (RT : NodeRuntime) api h pipeName filenames postJSON beginMark
         startTimeInclusive endTimeExclusive env,
  let hf := fst (run h None (insertFile api pipeName filenames postJSON env)) in
  let hr := fst (run h None (insertReport api pipeName beginMark env)) in
  let hl := fst (run h None (loadHistoryScan api pipeName startTimeInclusive endTimeExclusive env)) in
  get_slice hf EinsertReport = get_slice h EinsertReport
  /\ get_slice hf EloadHistoryScan = get_slice h EloadHistoryScan
  /\ get_slice hr EinsertFile = get_slice h EinsertFile
  /\ get_slice hr EloadHistoryScan = get_slice h EloadHistoryScan
  /\ get_slice hl EinsertFile = get_slice h EinsertFile
  /\ get_slice hl EinsertReport = get_slice h EinsertReport.
Proof.
  intros RT api h pipeName filenames postJSON beginMark startTimeInclusive endTimeExclusive env
    hf hr hl.
  unfold hf, hr, hl.
  change (insertFile api pipeName filenames postJSON env)
    with (call_actions api (CinsertFile pipeName filenames postJSON env)).
  change (insertReport api pipeName beginMark env)
    with (call_actions api (CinsertReport pipeName beginMark env)).
  change (loadHistoryScan api pipeName startTimeInclusive endTimeExclusive env)
    with (call_actions api (CloadHistoryScan pipeName startTimeInclusive endTimeExclusive env)).
  rewrite !run_slice, !call_pushes_other by discriminate.
  rewrite !app_nil_r; repeat split.
Qed.

Lemma run_calls_cons : forall (RT : NodeRuntime) api h c r,
  fst (run_calls api h (c :: r)) = fst (run_calls api (fst (run h None (call_actions api c))) r).
Proof.
  intros RT api h c r; simpl.
  destruct (run h None (call_actions api c)) as [h1 s]; simpl.
  destruct (run_calls api h1 r) as [h2 ss]; reflexivity.
Qed.

(** C7: over a sequence of completed calls (each one mints its token and
    reaches the transport) with history recording on, the slice of every
    endpoint ends up as its old contents followed by exactly one record per
    call to that endpoint, in call order; each record pairs the options
    that call sent with the response or error it received.  Old records
    are kept as a prefix: nothing is removed, reordered or merged. *)
Theorem run_calls_history_order :
  forall (RT : NodeRuntime) api h cs e,
  recording (SnowpipeAPI.snowpipeAPIOptions api) = true ->
  Forall (fun c => exists jwtToken,
            getBearerToken api (CallEnv.now_iat (call_env c)) (CallEnv.now_exp (call_env c))
            = inr jwtToken) cs ->
  exists rs,
    get_slice (fst (run_calls api h cs)) e = get_slice h e ++ rs
    /\ Forall2 (fun c r => sent_options (call_actions api c) = Some (RecordedCall.request r)
                           /\ RecordedCall.response r = outcome_record (CallEnv.outcome (call_env c)))
               (filter (fun c => endpoint_eqb (call_endpoint c) e) cs) rs.
Proof.
  intros RT api h cs e Hrec Hok.
  revert h; induction Hok as [|c cs [tok Htok] Hok IH]; intros h.
  - exists []; split; [rewrite app_nil_r; reflexivity | constructor].
  - rewrite run_calls_cons.
    destruct (IH (fst (run h None (call_actions api c)))) as (rs & Hs & Hf).
    destruct (call_actions_makeRequest _ _ _ Htok) as (options & pb & Hc).
    rewrite Hs, run_slice, Hc, makeRequest_pushes, Hrec; simpl.
    destruct (endpoint_eqb (call_endpoint c) e).
    + eexists; split; [simpl; rewrite <- app_assoc; reflexivity|].
      constructor; [|exact Hf].
      rewrite Hc; split; reflexivity.
    + exists rs; split; [rewrite app_nil_r; reflexivity | exact Hf].
Qed.

(** ** Claims about [insertFile] *)

(** C4: the body [insertFile] writes is the newline-joined file list with
    [Content-Type: text/plain] when [postJSON] is off (false or omitted),
    and the JSON text [{"files":[{"path":<f>},...]}] (each name a JSON string
    literal, one object per name, in order) with
    [Content-Type: application/json] when it is on.  (Code units: 123 is
    an opening brace, 34 a double quote, 58 a colon, 91/93 brackets, 44 a
    comma, 125 a closing brace, 10 a newline.) *)
Theorem insertFile_body :
  forall (RT : NodeRuntime) api pipeName filenames postJSON env jwtToken,
  getBearerToken api (CallEnv.now_iat env) (CallEnv.now_exp env) = inr jwtToken ->
  let acts := insertFile api pipeName filenames postJSON env in
  exists options,
    sent_options acts = Some options
    /\ match postJSON with
       | Some true =>
           sent_body acts
           = [123; 34] ++ lit "files" ++ [34; 58; 91]
             ++ join [44] (map (fun f => [123; 34] ++ lit "path" ++ [34; 58]
                                         ++ QuoteJSONString f ++ [125]) filenames)
             ++ [93; 125]
           /\ header (lit "Content-Type") (RequestOptions.headers options)
              = Some (HStr (lit "application/json"))
       | _ =>
           sent_body acts = join [10] filenames
           /\ header (lit "Content-Type") (RequestOptions.headers options)
              = Some (HStr (lit "text/plain"))
       end.
Proof.
  intros RT api pipeName filenames postJSON env jwtToken Htok acts.
  unfold acts, insertFile; rewrite Htok.
  destruct postJSON as [[]|]; (eexists; split; [reflexivity|]);
    rewrite makeRequest_sent_body; (split; [|reflexivity]).
  - simpl JSON_stringify. rewrite map_map. simpl. rewrite <- app_assoc. reflexivity.
  - reflexivity.
  - reflexivity.
Qed.

Lemma utf8_length_ascii : forall s,
  (List.length s <= utf8_length s)%nat
  /\ (utf8_length s = List.length s <-> Forall (fun u => u < 128) s).
Proof.
  intros s; remember (List.length s) as n eqn:Hn; revert s Hn.
  induction n as [n IH] using lt_wf_ind; intros s Hn.
  destruct s as [|u r]; simpl in *.
  - subst n; split; [lia|]; split; intros _; [apply Forall_nil|reflexivity].
  - assert (Hr := IH (List.length r) ltac:(lia) r eq_refl).
    destruct Hr as [Hle Hr].
    destruct (u <? 0x80) eqn:H1.
    + apply N.ltb_lt in H1.
      split; [lia|]; split.
      * intros He; constructor; [exact H1|apply Hr; lia].
      * intros Hf; inversion Hf; subst; f_equal; apply Hr; assumption.
    + apply N.ltb_ge in H1.
      assert (Hna : ~ Forall (fun u => u < 128) (u :: r))
        by (intros Hf; inversion Hf; subst; lia).
      assert (Hgt : (S (List.length r) < utf8_length (u :: r))%nat).
      { simpl. rewrite (proj2 (N.ltb_ge u 0x80) H1).
        destruct (u <? 0x800); [lia|].
        destruct (is_high_surrogate u); [|lia].
        destruct r as [|v r']; [simpl; lia|].
        destruct (is_low_surrogate v); [|lia].
        destruct (IH (List.length r') ltac:(simpl in Hn; lia) r' eq_refl) as [Hle' _]. simpl; lia. }
      simpl in Hgt; rewrite (proj2 (N.ltb_ge u 0x80) H1) in Hgt.
      split; [lia|]; split; [lia|]; intros Hf; contradiction.
Qed.

(** C10: in both modes [insertFile] sets [Content-Length] to the length of
    the written body in UTF-16 code units; the UTF-8 byte count that
    [req.write] sends equals it exactly when every code unit of the body
    is below 128 (ASCII).  A single non-ASCII code unit, even one that is
    a whole character such as U+00E9, already makes them differ. *)
Theorem insertFile_content_length :
  forall (RT : NodeRuntime) api pipeName filenames postJSON env options,
  sent_options (insertFile api pipeName filenames postJSON env) = Some options ->
  let postBody := sent_body (insertFile api pipeName filenames postJSON env) in
  header (lit "Content-Length") (RequestOptions.headers options)
  = Some (HNum (Z.of_nat (List.length postBody)))
  /\ (utf8_length postBody = List.length postBody <-> Forall (fun u => u < 128) postBody).
Proof.
  intros RT api pipeName filenames postJSON env options Hs postBody.
  split; [|apply utf8_length_ascii].
  unfold postBody; unfold insertFile in *.
  destruct (match postJSON with Some b => b | None => false end);
    (destruct (getBearerToken api (CallEnv.now_iat env) (CallEnv.now_exp env)) as [e|tok];
     [simpl in Hs; discriminate Hs|]);
    rewrite makeRequest_sent_options in Hs; injection Hs as <-;
    rewrite makeRequest_sent_body; reflexivity.
Qed.

(** ** Claims about the request path and the hostname *)

(** C5 (counterexample): a provided but empty [beginMark] is falsy in
    [if (beginMark)], so no [&beginMark=] is appended. *)
Lemma insertReport_empty_beginMark_dropped :
  option_map RequestOptions.path
    (sent_options (insertReport (demoAPI true) (lit "p") (Some [])
                                (demoEnv (Response (Some 200%Z) [lit "{}"]))))
  <> Some (lit "/v1/data/pipes/p/insertReport?requestId=00ff10" ++ lit "&beginMark=").
Proof. vm_compute. discriminate. Qed.

(** C5 (as amended): [insertReport] appends [&beginMark=<mark>] exactly
    when [beginMark] is a non-empty string and otherwise (absent or empty)
    leaves the path without any beginMark parameter; [loadHistoryScan]
    does the same with [&endTimeExclusive=<value>]. *)
Theorem optional_query_parameters :
  forall (RT : NodeRuntime) api pipeName beginMark startTimeInclusive endTimeExclusive env jwtToken,
  getBearerToken api (CallEnv.now_iat env) (CallEnv.now_exp env) = inr jwtToken ->
  let requestId := getRequestId (CallEnv.randomBytes env) in
  option_map RequestOptions.path (sent_options (insertReport api pipeName beginMark env))
  = Some (lit "/v1/data/pipes/" ++ pipeName ++ lit "/insertReport?requestId=" ++ requestId
          ++ match beginMark with
             | Some ((_ :: _) as m) => lit "&beginMark=" ++ m
             | _ => []
             end)
  /\ option_map RequestOptions.path
       (sent_options (loadHistoryScan api pipeName startTimeInclusive endTimeExclusive env))
     = Some (lit "/v1/data/pipes/" ++ pipeName ++ lit "/loadHistoryScan?startTimeInclusive="
             ++ startTimeInclusive ++ lit "&requestId=" ++ requestId
             ++ match endTimeExclusive with
                | Some ((_ :: _) as m) => lit "&endTimeExclusive=" ++ m
                | _ => []
                end).
Proof.
  intros RT api pipeName beginMark startTimeInclusive endTimeExclusive env jwtToken Htok requestId.
  unfold insertReport, loadHistoryScan; rewrite Htok, !makeRequest_sent_options.
  cbn [option_map RequestOptions.path]; split; f_equal.
  - destruct beginMark as [[|u m]|]; cbn [truthy template_str]; rewrite ?app_nil_r;
      repeat rewrite <- app_assoc; reflexivity.
  - destruct endTimeExclusive as [[|u m]|]; cbn [truthy template_str]; rewrite ?app_nil_r;
      repeat rewrite <- app_assoc; reflexivity.
Qed.

(** C3 (counterexample): an empty [regionId] is not [undefined], so it is
    kept and yields an empty label: [ACME..gcp.snowflakecomputing.com]. *)
Lemma hostname_keeps_empty_region :
  Config.hostname (SnowpipeAPI.config
    (createSnowpipeAPI (RT := demoRuntime) (lit "user") (lit "KEY") (lit "ACME")
                       (Some []) (Some (lit "gcp")) None))
  <> lit "ACME.gcp.snowflakecomputing.com".
Proof. vm_compute. discriminate. Qed.

(** C3 (as amended): the hostname is [account], then ["." ++ regionId] and
    ["." ++ cloudProvider] for each of them that is not undefined (an empty
    string is kept), then [.snowflakecomputing.com]; it is fixed in the
    client's config at construction and every request any operation sends
    goes to that hostname. *)
Theorem createSnowpipeAPI_hostname :
  forall (RT : NodeRuntime) username privateKey account regionId cloudProvider snowpipeAPIOptions,
  let api := createSnowpipeAPI username privateKey account regionId cloudProvider snowpipeAPIOptions in
  Config.hostname (SnowpipeAPI.config api)
  = account ++ match regionId with Some r => lit "." ++ r | None => [] end
            ++ match cloudProvider with Some c => lit "." ++ c | None => [] end
            ++ lit ".snowflakecomputing.com"
  /\ Config.hostname (SnowpipeAPI.config
       (createSnowpipeAPI username privateKey (lit "ACME") (Some (lit "us-central1"))
                          (Some (lit "gcp")) snowpipeAPIOptions))
     = lit "ACME.us-central1.gcp.snowflakecomputing.com"
  /\ (forall c, match sent_options (call_actions api c) with
                | Some options => RequestOptions.hostname options = Config.hostname (SnowpipeAPI.config api)
                | None => True
                end).
Proof.
  intros RT username privateKey account regionId cloudProvider snowpipeAPIOptions api.
  split; [|split].
  - unfold api, createSnowpipeAPI.
    destruct regionId, cloudProvider;
      cbn [SnowpipeAPI.config Config.hostname domain_filter flat_map join app];
      rewrite ?app_nil_r;
      repeat rewrite <- app_assoc; reflexivity.
  - reflexivity.
  - intros c; destruct c; simpl; unfold insertFile, insertReport, loadHistoryScan;
      [destruct (match postJSON with Some b => b | None => false end)|..];
      (destruct (getBearerToken api (CallEnv.now_iat env) (CallEnv.now_exp env)); exact I + reflexivity).
Qed.

(** ** The token's lifetime *)

Lemma token_payload_lifetime : forall config signature now_iat now_exp,
  (Payload.exp (token_payload config signature now_iat now_exp)
   - Payload.iat (token_payload config signature now_iat now_exp)
   = 3540 + (Math_round now_exp 1000 - Math_round now_iat 1000))%Z.
Proof.
  intros; unfold token_payload, Math_round; cbn [Payload.exp Payload.iat].
  replace (2 * (now_exp + 1000 * (60 * 59)) + 1000)%Z
    with ((2 * now_exp + 1000) + 3540 * (2 * 1000))%Z by lia.
  rewrite Z.div_add by lia; lia.
Qed.

(** C1 (code bug): the two claims are computed from two separate clock
    readings; when the millisecond clock crosses a rounding boundary between
    them (499 ms then 500 ms past a second), [exp - iat] is 3541, not 3540. *)
Theorem token_payload_clock_tick : forall config signature,
  let p := token_payload config signature 1700000000499 1700000000500 in
  (Payload.exp p - Payload.iat p = 3541)%Z.
Proof. intros config signature p; vm_compute; reflexivity. Qed.

(** ** Witnesses: the theorems applied at concrete inputs *)

Lemma makeRequest_http_error_witness :
  (403 < 200 \/ 299 < 403)%Z
  /\ snd (run empty_history None
            (makeRequest (RT := demoRuntime) (Some {| recordHistory := true |}) demoOptions
                         EinsertReport None (Response (Some 403%Z) [lit "forbidden"])))
     = Some (Rejected (Error (lit "status code: " ++ Number_toString 403 ++ lit ".  '"
                              ++ join [] [lit "forbidden"] ++ lit "'"))).
Proof.
  assert (H : (403 < 200 \/ 299 < 403)%Z) by (right; reflexivity).
  split; [exact H|].
  exact (proj1 (makeRequest_http_error demoRuntime (Some {| recordHistory := true |}) demoOptions
                  EinsertReport None 403 [lit "forbidden"] empty_history H)).
Defined.

Lemma makeRequest_unparsable_success_witness :
  (200 <= 200 <= 299)%Z
  /\ JSON_parse (NodeRuntime := demoRuntime) (join [] [lit "not json"]) = None
  /\ snd (run empty_history None
            (makeRequest (RT := demoRuntime) (Some {| recordHistory := true |}) demoOptions
                         EinsertReport None (Response (Some 200%Z) [lit "not json"])))
     = Some (Fulfilled {| SnowpipeAPIResponse.json := JNull;
                          SnowpipeAPIResponse.rawResponse := join [] [lit "not json"];
                          SnowpipeAPIResponse.statusCode := Some 200%Z |}).
Proof.
  assert (H1 : (200 <= 200 <= 299)%Z) by (split; discriminate).
  assert (H2 : JSON_parse (NodeRuntime := demoRuntime) (join [] [lit "not json"]) = None)
    by reflexivity.
  split; [exact H1|split; [exact H2|]].
  exact (makeRequest_unparsable_success demoRuntime (Some {| recordHistory := true |}) demoOptions
           EinsertReport None 200 [lit "not json"] empty_history H1 H2).
Defined.

Lemma run_calls_history_order_witness :
  recording (SnowpipeAPI.snowpipeAPIOptions (demoAPI true)) = true
  /\ Forall (fun c => exists jwtToken,
               getBearerToken (RT := demoRuntime) (demoAPI true)
                 (CallEnv.now_iat (call_env c)) (CallEnv.now_exp (call_env c)) = inr jwtToken)
            demoCalls
  /\ exists rs,
       get_slice (fst (run_calls (RT := demoRuntime) (demoAPI true) empty_history demoCalls))
                 EinsertReport
       = get_slice empty_history EinsertReport ++ rs
       /\ List.length rs = 2%nat.
Proof.
  assert (H1 : recording (SnowpipeAPI.snowpipeAPIOptions (demoAPI true)) = true) by reflexivity.
  assert (H2 : Forall (fun c => exists jwtToken,
                 getBearerToken (RT := demoRuntime) (demoAPI true)
                   (CallEnv.now_iat (call_env c)) (CallEnv.now_exp (call_env c)) = inr jwtToken)
               demoCalls).
  { repeat apply Forall_cons; try apply Forall_nil; eexists; reflexivity. }
  split; [exact H1|split; [exact H2|]].
  destruct (run_calls_history_order demoRuntime (demoAPI true) empty_history demoCalls
              EinsertReport H1 H2) as (rs & Hs & Hf).
  exists rs; split; [exact Hs|].
  exact (eq_sym (Forall2_length Hf)).
Defined.

Lemma insertFile_body_witness :
  getBearerToken (RT := demoRuntime) (demoAPI true) 1700000000000 1700000000000
    = inr (lit "ACME.user")
  /\ exists options,
       sent_options (insertFile (RT := demoRuntime) (demoAPI true) (lit "p")
                                [lit "a.csv"; lit "b.csv"] (Some true)
                                (demoEnv (Response (Some 200%Z) [lit "{}"])))
       = Some options
       /\ header (lit "Content-Type") (RequestOptions.headers options)
          = Some (HStr (lit "application/json")).
Proof.
  assert (H : getBearerToken (RT := demoRuntime) (demoAPI true) 1700000000000 1700000000000
              = inr (lit "ACME.user")) by reflexivity.
  split; [exact H|].
  destruct (insertFile_body demoRuntime (demoAPI true) (lit "p") [lit "a.csv"; lit "b.csv"]
              (Some true) (demoEnv (Response (Some 200%Z) [lit "{}"])) (lit "ACME.user") H)
    as (options & Ho & _ & Hh).
  exists options; split; [exact Ho|exact Hh].
Defined.

Lemma insertFile_content_length_witness :
  sent_options demoFileActions = Some demoFileOptions
  /\ header (lit "Content-Length") (RequestOptions.headers demoFileOptions)
     = Some (HNum (Z.of_nat (List.length (sent_body demoFileActions)))).
Proof.
  assert (H : sent_options demoFileActions = Some demoFileOptions) by reflexivity.
  split; [exact H|].
  exact (proj1 (insertFile_content_length demoRuntime (demoAPI true) (lit "p")
                  [lit "a.csv"; lit "b.csv"] None (demoEnv (Response (Some 200%Z) [lit "{}"]))
                  demoFileOptions H)).
Defined.

Lemma optional_query_parameters_witness :
  getBearerToken (RT := demoRuntime) (demoAPI true) 1700000000000 1700000000000
    = inr (lit "ACME.user")
  /\ option_map RequestOptions.path
       (sent_options (insertReport (RT := demoRuntime) (demoAPI true) (lit "p") (Some (lit "mark123"))
                                   (demoEnv (Response (Some 200%Z) [lit "{}"]))))
     = Some (lit "/v1/data/pipes/" ++ lit "p" ++ lit "/insertReport?requestId="
             ++ getRequestId [0; 255; 16] ++ lit "&beginMark=" ++ lit "mark123").
Proof.
  assert (H : getBearerToken (RT := demoRuntime) (demoAPI true) 1700000000000 1700000000000
              = inr (lit "ACME.user")) by reflexivity.
  split; [exact H|].
  exact (proj1 (optional_query_parameters demoRuntime (demoAPI true) (lit "p") (Some (lit "mark123"))
                  (lit "t0") None (demoEnv (Response (Some 200%Z) [lit "{}"])) (lit "ACME.user") H)).
Defined.

(** ** Further properties of the code *)

Lemma map_legacy_makeRequest : forall (RT : NodeRuntime) opts options target pb o,
  map legacy_of (makeRequest opts options target pb o)
  = Legacy.makeRequest opts options target pb o.
Proof.
  intros RT opts options target pb o.
  unfold makeRequest, Legacy.makeRequest, on_end, Legacy.on_end, on_error, Legacy.on_error.
  rewrite !map_app.
  destruct o as [[c|] chunks|err]; [destruct ((c <? 200)%Z || (299 <? c)%Z)|..];
    destruct (truthy pb), (recording opts); reflexivity.
Qed.

(** The earlier module performs exactly the effects of the current one
    (same requests, same bodies, same history records, same rejections);
    its [insertFile(filenames, pipeName)] behaves as the current
    [insertFile(pipeName, filenames, true)], and where the current module
    fulfils with a [SnowpipeAPIResponse] the earlier one resolves with that
    response's [rawResponse]. *)
Theorem legacy_operations_agree :
  forall (RT : NodeRuntime) api filenames pipeName beginMark startTimeInclusive endTimeExclusive env,
  Legacy.insertFile api filenames pipeName env
  = map legacy_of (insertFile api pipeName filenames (Some true) env)
  /\ Legacy.insertReport api pipeName beginMark env
     = map legacy_of (insertReport api pipeName beginMark env)
  /\ Legacy.loadHistoryScan api pipeName startTimeInclusive endTimeExclusive env
     = map legacy_of (loadHistoryScan api pipeName startTimeInclusive endTimeExclusive env).
Proof.
  intros RT api filenames pipeName beginMark startTimeInclusive endTimeExclusive env.
  unfold Legacy.insertFile, insertFile, Legacy.insertReport, insertReport,
    Legacy.loadHistoryScan, loadHistoryScan.
  cbv zeta iota.
  destruct (getBearerToken api (CallEnv.now_iat env) (CallEnv.now_exp env));
    [repeat split | rewrite !map_legacy_makeRequest; repeat split].
Qed.

(** A transport error rejects the call with that very error; with history
    recording on, the calling endpoint's slice gains one record holding the
    request options and the error (no status code, no body), and with it
    off the slice is unchanged. *)
Theorem makeRequest_transport_error :
  forall (RT : NodeRuntime) opts options target pb error h,
  let acts := makeRequest opts options target pb (RequestError error) in
  snd (run h None acts) = Some (Rejected error)
  /\ get_slice (fst (run h None acts)) target
     = get_slice h target
       ++ (if recording opts
           then [{| RecordedCall.request := options;
                    RecordedCall.response :=
                      {| RecordedCallResponse.error := Some error;
                         RecordedCallResponse.statusCode := None;
                         RecordedCallResponse.messageBody := None |} |}]
           else []).
Proof.
  intros RT opts options target pb error h acts; split.
  - unfold acts, makeRequest, on_error; destruct (truthy pb), (recording opts); reflexivity.
  - unfold acts; rewrite run_slice, makeRequest_pushes.
    assert (Ht : endpoint_eqb target target = true) by (apply endpoint_eqb_spec; reflexivity).
    rewrite Ht, andb_true_r; reflexivity.
Qed.





Lemma history_ext : forall h1 h2 : APIEndpointHistory.t,
  (forall e, get_slice h1 e = get_slice h2 e) -> h1 = h2.
Proof.
  intros [a1 b1 c1] [a2 b2 c2] H.
  pose proof (H EinsertFile); pose proof (H EinsertReport); pose proof (H EloadHistoryScan).
  simpl in *; subst; reflexivity.
Qed.

Lemma call_pushes_length : forall (RT : NodeRuntime) api c e,
  (List.length (pushes_to e (call_actions api c))
   <= (if endpoint_eqb (call_endpoint c) e then 1 else 0))%nat
  /\ (recording (SnowpipeAPI.snowpipeAPIOptions api) = false -> pushes_to e (call_actions api c) = []).
Proof.
  intros RT api c e.
  destruct (getBearerToken api (CallEnv.now_iat (call_env c)) (CallEnv.now_exp (call_env c)))
    as [err|tok] eqn:Ht.
  - rewrite (call_actions_no_token _ _ _ Ht); simpl; split; [lia|reflexivity].
  - destruct (call_actions_makeRequest _ _ _ Ht) as (options & pb & ->).
    rewrite makeRequest_pushes; split.
    + destruct (recording _), (endpoint_eqb _ _); simpl; lia.
    + intros Hr; rewrite Hr; reflexivity.
Qed.

(** With history recording off (no options, or [recordHistory: false]),
    no sequence of calls changes the call history. *)
Theorem run_calls_no_recording :
  forall (RT : NodeRuntime) api h cs,
  recording (SnowpipeAPI.snowpipeAPIOptions api) = false ->
  fst (run_calls api h cs) = h.
Proof.
  intros RT api h cs Hr; revert h; induction cs as [|c cs IH]; intros h; [reflexivity|].
  rewrite run_calls_cons, IH.
  apply history_ext; intros e.
  rewrite run_slice, (proj2 (call_pushes_length RT api c e) Hr), app_nil_r; reflexivity.
Qed.

(** Whatever happens to the calls (token failures, transport or HTTP
    errors, recording on or off), a slice only grows at its end, and by at
    most one record per call made to its endpoint. *)
Theorem run_calls_append_only :
  forall (RT : NodeRuntime) api h cs e,
  exists rs,
    get_slice (fst (run_calls api h cs)) e = get_slice h e ++ rs
    /\ (List.length rs <= List.length (filter (fun c => endpoint_eqb (call_endpoint c) e) cs))%nat.
Proof.
  intros RT api h cs e; revert h; induction cs as [|c cs IH]; intros h.
  - exists []; split; [rewrite app_nil_r; reflexivity|simpl; lia].
  - rewrite run_calls_cons.
    destruct (IH (fst (run h None (call_actions api c)))) as (rs & Hs & Hl).
    rewrite Hs, run_slice.
    exists (pushes_to e (call_actions api c) ++ rs); split; [rewrite app_assoc; reflexivity|].
    rewrite length_app.
    pose proof (proj1 (call_pushes_length RT api c e)) as Hc.
    simpl; destruct (endpoint_eqb (call_endpoint c) e); simpl in *; lia.
Qed.

(** A private key that [crypto.createPublicKey] rejects makes every
    operation reject with that error before any request is sent, and leaves
    the history untouched. *)
Theorem bad_key_rejects_before_request :
  forall (RT : NodeRuntime) api c err h,
  createPublicKey_spki_der (SnowpipeAPI.privateKey api) = inl err ->
  sent_options (call_actions api c) = None
  /\ run h None (call_actions api c) = (h, Some (Rejected err)).
Proof.
  intros RT api c err h Hk.
  assert (Ht : getBearerToken api (CallEnv.now_iat (call_env c)) (CallEnv.now_exp (call_env c))
               = inl err) by (unfold getBearerToken; rewrite Hk; reflexivity).
  rewrite (call_actions_no_token _ _ _ Ht); split; reflexivity.
Qed.


Lemma hex_digit_inj : forall d e, d < 16 -> e < 16 -> hex_digit d = hex_digit e -> d = e.
Proof.
  intros d e Hd He; unfold hex_digit.
  destruct (d <? 10) eqn:H1, (e <? 10) eqn:H2;
    rewrite ?N.ltb_lt, ?N.ltb_ge in H1; rewrite ?N.ltb_lt, ?N.ltb_ge in H2; lia.
Qed.

Lemma hex_digit_range : forall d, d < 16 ->
  (48 <= hex_digit d <= 57) \/ (97 <= hex_digit d <= 102).
Proof.
  intros d Hd; unfold hex_digit.
  destruct (d <? 10) eqn:H1; rewrite ?N.ltb_lt, ?N.ltb_ge in H1; lia.
Qed.

Lemma hex_fixed_byte : forall b, b < 256 ->
  hex_fixed 2 b = [hex_digit (b / 16); hex_digit (b mod 16)].
Proof.
  intros b Hb; simpl.
  rewrite (N.mod_small (b / 16) 16); [reflexivity|].
  apply N.Div0.div_lt_upper_bound; lia.
Qed.

(** [getRequestId] turns random bytes into two lower-case hex digits per
    byte: for the 16 bytes of [crypto.randomBytes(16)] a 32-character id
    over [0-9a-f]. *)
Theorem getRequestId_format :
  forall bytes, Forall (fun b => b < 256) bytes ->
  List.length (getRequestId bytes) = (2 * List.length bytes)%nat
  /\ Forall (fun c => (48 <= c <= 57) \/ (97 <= c <= 102)) (getRequestId bytes).
Proof.
  induction 1 as [|b bytes Hb Hbs [IHl IHf]]; [split; [reflexivity|constructor]|].
  unfold getRequestId in *; cbn [flat_map]; rewrite hex_fixed_byte by exact Hb.
  split; [cbn [List.length app]; rewrite IHl; lia|].
  constructor; [apply hex_digit_range; apply N.Div0.div_lt_upper_bound; lia|].
  constructor; [apply hex_digit_range; apply N.mod_lt; discriminate|exact IHf].
Qed.

(** Distinct random byte strings give distinct request ids: the hex
    encoding of [getRequestId] loses nothing. *)
Theorem getRequestId_injective :
  forall a b, Forall (fun x => x < 256) a -> Forall (fun x => x < 256) b ->
  getRequestId a = getRequestId b -> a = b.
Proof.
  intros a b Ha; revert b; induction Ha as [|x a Hx Ha IH]; intros b Hb Heq.
  - destruct Hb as [|y b Hy Hb]; [reflexivity|].
    unfold getRequestId in Heq; cbn [flat_map] in Heq; rewrite hex_fixed_byte in Heq by exact Hy.
    discriminate Heq.
  - destruct Hb as [|y b Hy Hb].
    + unfold getRequestId in Heq; cbn [flat_map] in Heq; rewrite hex_fixed_byte in Heq by exact Hx.
      discriminate Heq.
    + unfold getRequestId in Heq; cbn [flat_map] in Heq.
      rewrite !hex_fixed_byte in Heq by assumption.
      simpl in Heq; injection Heq as H1 H2 H3.
      apply hex_digit_inj in H1; [|apply N.Div0.div_lt_upper_bound; lia..].
      apply hex_digit_inj in H2; [|apply N.mod_lt; discriminate..].
      f_equal; [|apply IH; assumption].
      rewrite (N.div_mod x 16), (N.div_mod y 16) by discriminate; lia.
Qed.

Lemma run_calls_no_recording_witness :
  recording (SnowpipeAPI.snowpipeAPIOptions (demoAPI false)) = false
  /\ fst (run_calls (RT := demoRuntime) (demoAPI false) empty_history demoCalls) = empty_history.
Proof.
  split; [reflexivity|].
  apply (run_calls_no_recording demoRuntime (demoAPI false) empty_history demoCalls).
  reflexivity.
Defined.

Lemma bad_key_rejects_before_request_witness :
  let api := createSnowpipeAPI (RT := demoRuntime) (lit "user") [] (lit "ACME") None None
               (Some {| recordHistory := true |}) in
  let c := CinsertReport (lit "p") None (demoEnv (Response (Some 200%Z) [lit "{}"])) in
  createPublicKey_spki_der (SnowpipeAPI.privateKey api) = inl (Error (lit "bad key"))
  /\ sent_options (call_actions api c) = None
  /\ run empty_history None (call_actions api c)
     = (empty_history, Some (Rejected (Error (lit "bad key")))).
Proof.
  intros api c; split; [reflexivity|].
  apply (bad_key_rejects_before_request demoRuntime api c (Error (lit "bad key")) empty_history).
  reflexivity.
Defined.


Lemma getRequestId_format_witness :
  Forall (fun b => b < 256) [0; 171; 255; 16]
  /\ List.length (getRequestId [0; 171; 255; 16]) = 8%nat
  /\ Forall (fun c => (48 <= c <= 57) \/ (97 <= c <= 102)) (getRequestId [0; 171; 255; 16]).
Proof.
  assert (H : Forall (fun b => b < 256) [0; 171; 255; 16])
    by (repeat constructor; vm_compute; reflexivity).
  split; [exact H|].
  exact (getRequestId_format [0; 171; 255; 16] H).
Defined.

Lemma getRequestId_injective_witness :
  Forall (fun x => x < 256) [1; 2] /\ Forall (fun x => x < 256) [1; 2]
  /\ (getRequestId [1; 2] = getRequestId [1; 2] -> [1; 2] = [1; 2]).
Proof.
  assert (H : Forall (fun x => x < 256) [1; 2])
    by (repeat constructor; vm_compute; reflexivity).
  split; [exact H|]; split; [exact H|].
  exact (getRequestId_injective [1; 2] [1; 2] H H).
Defined.

Lemma hex_fixed_ascii : forall k n, Forall (fun u => u < 128) (hex_fixed k n).
Proof.
  induction k as [|k IH]; intros n; [constructor|].
  simpl; apply Forall_app; split; [apply IH|].
  constructor; [|constructor].
  destruct (hex_digit_range (n mod 16)) as [H|H]; [apply N.mod_lt; discriminate|lia..].
Qed.

Lemma unicode_escape_ascii : forall u, Forall (fun u => u < 128) (unicode_escape u).
Proof.
  intros u; unfold unicode_escape; apply Forall_app; split; [repeat constructor; lia|].
  apply hex_fixed_ascii.
Qed.

Lemma escape_unit_ascii : forall u, u < 128 -> Forall (fun u => u < 128) (escape_unit u).
Proof.
  intros u Hu; unfold escape_unit.
  repeat match goal with
         | |- context [if ?b then _ else _] => destruct b
         end;
    first [apply unicode_escape_ascii | repeat constructor; lia].
Qed.

Lemma quote_units_ascii : forall s,
  Forall (fun u => u < 128) s -> Forall (fun u => u < 128) (quote_units s).
Proof.
  induction 1 as [|u s Hu Hs IH]; [constructor|].
  simpl; replace (is_high_surrogate u) with false
    by (unfold is_high_surrogate; symmetry; apply andb_false_iff; left; apply N.leb_gt; lia).
  apply Forall_app; split; [apply escape_unit_ascii; exact Hu|exact IH].
Qed.

Lemma Forall_join : forall (P : N -> Prop) sep l,
  Forall P sep -> Forall (Forall P) l -> Forall P (join sep l).
Proof.
  intros P sep l Hsep Hl; induction Hl as [|x l Hx Hl IH]; [constructor|].
  destruct l as [|y l]; simpl; [exact Hx|].
  apply Forall_app; split; [exact Hx|apply Forall_app; split; assumption].
Qed.

Lemma lit_ascii : forall s, forallb (fun u => u <? 128) (lit s) = true ->
  Forall (fun u => u < 128) (lit s).
Proof.
  intros s H; apply Forall_forall; intros u Hin.
  apply N.ltb_lt; exact (proj1 (forallb_forall _ _) H u Hin).
Qed.

(** When every file name is ASCII, the [Content-Length] header of
    [insertFile] is the exact UTF-8 byte count of the body written, in both
    the text/plain and the JSON mode. *)
Theorem insertFile_ascii_content_length :
  forall (RT : NodeRuntime) api pipeName filenames postJSON env options,
  Forall (Forall (fun u => u < 128)) filenames ->
  sent_options (insertFile api pipeName filenames postJSON env) = Some options ->
  header (lit "Content-Length") (RequestOptions.headers options)
  = Some (HNum (Z.of_nat (utf8_length (sent_body (insertFile api pipeName filenames postJSON env))))).
Proof.
  intros RT api pipeName filenames postJSON env options Hf Hs.
  unfold insertFile in *.
  destruct (match postJSON with Some b => b | None => false end);
    (destruct (getBearerToken api (CallEnv.now_iat env) (CallEnv.now_exp env)) as [e|tok];
     [simpl in Hs; discriminate Hs|]);
    rewrite makeRequest_sent_options in Hs; injection Hs as <-;
    rewrite makeRequest_sent_body.
  - match goal with
    | |- _ = Some (HNum (Z.of_nat (utf8_length ?b))) =>
        assert (Hb : Forall (fun u => u < 128) b)
    end.
    { cbn [JSON_stringify map join]; rewrite map_map.
      repeat (apply Forall_app; split); try (repeat constructor; lia).
      apply Forall_join; [repeat constructor; lia|].
      apply Forall_map; apply (Forall_impl _ (P := Forall (fun u => u < 128))); [|exact Hf].
      intros f Hfa; cbn [JSON_stringify map join]; unfold QuoteJSONString.
      repeat (apply Forall_app; split); try (repeat constructor; lia).
      apply quote_units_ascii; exact Hfa. }
    rewrite (proj2 (proj2 (utf8_length_ascii _)) Hb); reflexivity.
  - assert (Hb : Forall (fun u => u < 128) (join [10] filenames))
      by (apply Forall_join; [repeat constructor; lia|exact Hf]).
    rewrite (proj2 (proj2 (utf8_length_ascii _)) Hb); reflexivity.
Qed.

Lemma insertFile_ascii_content_length_witness :
  Forall (Forall (fun u => u < 128)) [lit "a.csv"; lit "b.csv"]
  /\ exists options,
    sent_options (insertFile (RT := demoRuntime) (demoAPI true) (lit "p") [lit "a.csv"; lit "b.csv"]
                             (Some true) (demoEnv (Response (Some 200%Z) [lit "{}"])))
    = Some options
    /\ header (lit "Content-Length") (RequestOptions.headers options)
       = Some (HNum (Z.of_nat (utf8_length
           (sent_body (insertFile (RT := demoRuntime) (demoAPI true) (lit "p") [lit "a.csv"; lit "b.csv"]
                                  (Some true) (demoEnv (Response (Some 200%Z) [lit "{}"]))))))).
Proof.
  assert (Hf : Forall (Forall (fun u => u < 128)) [lit "a.csv"; lit "b.csv"])
    by (repeat constructor; apply lit_ascii; reflexivity).
  split; [exact Hf|].
  eexists; split; [reflexivity|].
  apply (insertFile_ascii_content_length demoRuntime (demoAPI true) (lit "p")
           [lit "a.csv"; lit "b.csv"] (Some true) (demoEnv (Response (Some 200%Z) [lit "{}"])));
    [exact Hf|reflexivity].
Defined.



(** The bearer token depends on the account and the user name only
    through their upper-cased forms, and not at all on the region, the
    cloud provider or the options. *)
Theorem getBearerToken_case_insensitive :
  forall (RT : NodeRuntime) u1 u2 a1 a2 privateKey r1 r2 cp1 cp2 o1 o2 now_iat now_exp,
  toUpperCase u1 = toUpperCase u2 ->
  toUpperCase a1 = toUpperCase a2 ->
  getBearerToken (createSnowpipeAPI u1 privateKey a1 r1 cp1 o1) now_iat now_exp
  = getBearerToken (createSnowpipeAPI u2 privateKey a2 r2 cp2 o2) now_iat now_exp.
Proof.
  intros RT u1 u2 a1 a2 privateKey r1 r2 cp1 cp2 o1 o2 now_iat now_exp Hu Ha.
  unfold getBearerToken, createSnowpipeAPI, token_payload; cbn [SnowpipeAPI.privateKey SnowpipeAPI.config Config.account Config.username].
  rewrite Hu, Ha; reflexivity.
Qed.


Lemma getBearerToken_case_insensitive_witness :
  toUpperCase (NodeRuntime := upperRuntime) (lit "jsmith") = toUpperCase (NodeRuntime := upperRuntime) (lit "JSmith")
  /\ toUpperCase (NodeRuntime := upperRuntime) (lit "acme") = toUpperCase (NodeRuntime := upperRuntime) (lit "ACME")
  /\ getBearerToken (RT := upperRuntime)
       (createSnowpipeAPI (RT := upperRuntime) (lit "jsmith") (lit "KEY") (lit "acme")
                          (Some (lit "us-east-1")) None None) 1700000000000 1700000000000
     = getBearerToken (RT := upperRuntime)
       (createSnowpipeAPI (RT := upperRuntime) (lit "JSmith") (lit "KEY") (lit "ACME")
                          None (Some (lit "aws")) (Some {| recordHistory := true |}))
       1700000000000 1700000000000.
Proof.
  assert (Hu : toUpperCase (NodeRuntime := upperRuntime) (lit "jsmith")
               = toUpperCase (NodeRuntime := upperRuntime) (lit "JSmith")) by reflexivity.
  assert (Ha : toUpperCase (NodeRuntime := upperRuntime) (lit "acme")
               = toUpperCase (NodeRuntime := upperRuntime) (lit "ACME")) by reflexivity.
  split; [exact Hu|]; split; [exact Ha|].
  exact (getBearerToken_case_insensitive upperRuntime (lit "jsmith") (lit "JSmith")
           (lit "acme") (lit "ACME") (lit "KEY") (Some (lit "us-east-1")) None None (Some (lit "aws"))
           None (Some {| recordHistory := true |}) 1700000000000 1700000000000 Hu Ha).
Defined.
